(** * wx-domain-monitor: a shallow embedding of the monitor and the checker

    The two programs, [domain_monitor.py] and [domain_check.py], are
    embedded as functions in a state-and-exception monad over a [World]
    that holds the files the programs touch, the traffic they cause and
    what they print.  Everything the environment decides (replies of the
    two HTTP endpoints, the wall clock, whether a file can be written) is
    an oracle stored in the world, so every definition computes. *)

From Stdlib Require Import ZArith NArith QArith String Ascii List Lia.
From Stdlib Require Import Floats.SpecFloat.
From stdpp Require Import base option list gmap.

Local Open Scope N_scope.

(** ** Python strings

    A [str] is a sequence of code points.  String literals of the source
    are written as Rocq strings (UTF-8 bytes) and decoded by [utf8]. *)

Definition pystr : Type := list N.

Fixpoint decode_utf8 (bs : list N) : pystr :=
  match bs with
  | [] => []
  | b :: r =>
      if b <? 128 then b :: decode_utf8 r
      else if b <? 224 then
        match r with
        | c1 :: r1 => ((b - 192) * 64 + (c1 - 128)) :: decode_utf8 r1
        | _ => []
        end
      else if b <? 240 then
        match r with
        | c1 :: c2 :: r2 =>
            ((b - 224) * 4096 + (c1 - 128) * 64 + (c2 - 128)) :: decode_utf8 r2
        | _ => []
        end
      else
        match r with
        | c1 :: c2 :: c3 :: r3 =>
            ((b - 240) * 262144 + (c1 - 128) * 4096 + (c2 - 128) * 64 + (c3 - 128))
              :: decode_utf8 r3
        | _ => []
        end
  end.

Definition utf8 (s : string) : pystr :=
  decode_utf8 (map N_of_ascii (list_ascii_of_string s)).
Arguments utf8 : simpl never.

(** [str.isspace] on one code point: the white space [str.strip()] removes. *)
Definition isspace (c : N) : bool :=
  ((9 <=? c) && (c <=? 13)) || ((28 <=? c) && (c <=? 32))
  || (c =? 133) || (c =? 160) || (c =? 5760)
  || ((8192 <=? c) && (c <=? 8202))
  || (c =? 8232) || (c =? 8233) || (c =? 8239) || (c =? 8287) || (c =? 12288).

Fixpoint lstrip (s : pystr) : pystr :=
  match s with
  | c :: r => if isspace c then lstrip r else s
  | [] => []
  end.

Definition rstrip (s : pystr) : pystr := rev (lstrip (rev s)).

(** [line.strip()] *)
Definition strip (s : pystr) : pystr := rstrip (lstrip s).

(** [line.startswith('#')] *)
Definition startswith_hash (s : pystr) : bool :=
  match s with
  | c :: _ => c =? 35
  | [] => false
  end.

(** [bool(s)] for a string: non-empty. *)
Definition nonempty (s : pystr) : bool :=
  match s with [] => false | _ :: _ => true end.

(** ['sep'.join(parts)] *)
Fixpoint join (sep : pystr) (parts : list pystr) : pystr :=
  match parts with
  | [] => []
  | [p] => p
  | p :: ps => p ++ sep ++ join sep ps
  end.

(** Reading a text file with the default [newline=None]: the three line
    endings all become a line feed, and iterating the file yields the lines
    with their terminator. *)
Fixpoint universal_newlines (s : pystr) : pystr :=
  match s with
  | [] => []
  | c :: r =>
      if c =? 13 then
        10 :: match r with
              | c' :: r' => if c' =? 10 then universal_newlines r'
                            else universal_newlines r
              | [] => []
              end
      else c :: universal_newlines r
  end.

Fixpoint split_lines (cur : pystr) (s : pystr) : list pystr :=
  match s with
  | [] => match cur with [] => [] | _ => [cur] end
  | c :: r =>
      if c =? 10 then (cur ++ [c]) :: split_lines [] r
      else split_lines (cur ++ [c]) r
  end.

Definition file_lines (content : pystr) : list pystr :=
  split_lines [] (universal_newlines content).

(** ** Exceptions and the values of a parsed response *)

Inductive transport_error := TimedOut | ConnectionFailed | OtherRequestError.

Inductive exn :=
| SystemExit (code : Z)
| KeyboardInterrupt
| RequestException (t : transport_error)
| JSONDecodeError
| UnicodeEncodeError
| AttributeError
| ValueError
| OSError.

(** [isinstance(e, Exception)]: the two that derive from [BaseException]
    only are not caught by [except Exception]. *)
Definition is_Exception (e : exn) : bool :=
  match e with
  | SystemExit _ | KeyboardInterrupt => false
  | _ => true
  end.

(** What [response.json()] and [json.load] return. *)
#[local] Set Warnings "-register-all".
Inductive pyval :=
| PNone
| PBool (b : bool)
| PInt (n : Z)
| PFloat (f : spec_float)
| PStr (s : pystr)
| PList (l : list pyval)
| PDict (d : list (pystr * pyval)).

(** A dict keeps insertion order; keys are unique. *)
Fixpoint dict_get {V} (d : list (pystr * V)) (k : pystr) : option V :=
  match d with
  | [] => None
  | (k', v) :: r => if bool_decide (k' = k) then Some v else dict_get r k
  end.

Fixpoint dict_set {V} (d : list (pystr * V)) (k : pystr) (v : V) : list (pystr * V) :=
  match d with
  | [] => [(k, v)]
  | (k', v') :: r =>
      if bool_decide (k' = k) then (k, v) :: r else (k', v') :: dict_set r k v
  end.

(** [{**d, **extra}] *)
Definition dict_update {V} (d extra : list (pystr * V)) : list (pystr * V) :=
  fold_left (fun acc kv => dict_set acc (fst kv) (snd kv)) extra d.

(** [isinstance(v, dict)] *)
Definition is_dict (v : pyval) : bool :=
  match v with PDict _ => true | _ => false end.

(** [k in v] for a dict [v]. *)
Definition dict_has (v : pyval) (k : pystr) : bool :=
  match v with
  | PDict d => match dict_get d k with Some _ => true | None => false end
  | _ => false
  end.

(** [bool(v)] *)
Definition truthy (v : pyval) : bool :=
  match v with
  | PNone => false
  | PBool b => b
  | PInt n => negb (n =? 0)%Z
  | PFloat f => match f with S754_zero _ => false | _ => true end
  | PStr s => nonempty s
  | PList l => match l with [] => false | _ => true end
  | PDict d => match d with [] => false | _ => true end
  end.

(** [f == z] for a float and an int: Python compares the exact values. *)
Definition float_eq_int (f : spec_float) (z : Z) : bool :=
  match f with
  | S754_zero _ => (z =? 0)%Z
  | S754_finite s m e =>
      let v := if s then Z.neg m else Z.pos m in
      if (0 <=? e)%Z then (v * 2 ^ e =? z)%Z else (v =? z * 2 ^ (- e))%Z
  | S754_infinity _ | S754_nan => false
  end.

(** [v == z] for an int literal [z]: a bool is the int 0 or 1, a float is
    compared by value, everything else is unequal. *)
Definition eq_int (v : pyval) (z : Z) : bool :=
  match v with
  | PInt n => (n =? z)%Z
  | PBool b => ((if b then 1 else 0) =? z)%Z
  | PFloat f => float_eq_int f z
  | _ => false
  end.

(** [v != s] for a str literal [s]. *)
Definition ne_str (v : pyval) (s : pystr) : bool :=
  match v with
  | PStr s' => negb (bool_decide (s' = s))
  | _ => true
  end.

(** ** Formatted text

    An f-string is kept as its pieces: the literal text and the values it
    interpolates with [str()]; [Dumps v] stands for [json.dumps(v, ...)]. *)
Inductive piece :=
| Lit (s : pystr)
| Fmt (v : pyval)
| FmtExn (e : exn)
| Dumps (v : pyval).

Definition text : Type := list piece.

(** ** [urllib.parse.quote] *)

Definition is_surrogate (c : N) : bool := (55296 <=? c) && (c <=? 57343).

Definition utf8_encode_char (c : N) : list N :=
  if c <? 128 then [c]
  else if c <? 2048 then [192 + c / 64; 128 + c mod 64]
  else if c <? 65536 then
    [224 + c / 4096; 128 + (c / 64) mod 64; 128 + c mod 64]
  else
    [240 + c / 262144; 128 + (c / 4096) mod 64; 128 + (c / 64) mod 64;
     128 + c mod 64].

(** Letters, digits, [_.-~] and the default safe character [/]. *)
Definition quote_safe (b : N) : bool :=
  ((48 <=? b) && (b <=? 57)) || ((65 <=? b) && (b <=? 90))
  || ((97 <=? b) && (b <=? 122))
  || (b =? 95) || (b =? 46) || (b =? 45) || (b =? 126) || (b =? 47).

Definition hex_digit (n : N) : N := if n <? 10 then 48 + n else 55 + n.

Definition quote_byte (b : N) : pystr :=
  if quote_safe b then [b] else [37; hex_digit (b / 16); hex_digit (b mod 16)].

(** A lone surrogate cannot be encoded: [quote] raises. *)
Definition quote (s : pystr) : exn + pystr :=
  if existsb is_surrogate s then inl UnicodeEncodeError
  else inr (flat_map quote_byte (flat_map utf8_encode_char s)).

(** ** Configuration ([config.py]) *)

Record Config := {
  WEBHOOK_URL : pystr;
  NOTIFICATION_CONFIG : list (pystr * pyval);
  CHECK_INTERVAL : Z;
  LOGS_DIR : pystr
}.

(** ** The world *)

(** [datetime.now()] *)
Record datetime := {
  year : N; month : N; day : N; hour : N; minute : N; second : N
}.

Definition digit (n : N) : N := 48 + n mod 10.
Definition pad2 (n : N) : pystr := [digit (n / 10); digit n].
Definition pad4 (n : N) : pystr :=
  [digit (n / 1000); digit (n / 100); digit (n / 10); digit n].

(** [strftime('%Y-%m-%d')] *)
Definition strftime_date (t : datetime) : pystr :=
  pad4 (year t) ++ [45] ++ pad2 (month t) ++ [45] ++ pad2 (day t).

(** [strftime('%H:%M:%S')] *)
Definition strftime_time (t : datetime) : pystr :=
  pad2 (hour t) ++ [58] ++ pad2 (minute t) ++ [58] ++ pad2 (second t).

(** [strftime('%Y-%m-%d %H:%M:%S')] *)
Definition strftime_full (t : datetime) : pystr :=
  strftime_date t ++ [32] ++ strftime_time t.

(** The JSON body of a webhook message: [msgtype] and the [text] dict,
    whose [content] is an f-string and whose other entries are plain
    values. *)
Record message := {
  msgtype : pystr;
  text_dict : list (pystr * (text + pyval))
}.

(** What an HTTP request comes to: the call raises, or a response arrives
    whose body [response.json()] can parse ([Some]) or not ([None]). *)
Inductive reply :=
| Fails (t : transport_error)
| Responds (status_code : Z) (body : option pyval).

(** Opening a file for writing truncates it; the write itself can still
    fail (a full disk, text that the encoding rejects). *)
Inductive write_outcome := WriteOk | OpenFails | WriteFails.

(** [domains.txt]: missing, present but unreadable (the open or the
    decoding raises), or text. *)
Inductive txt_file := Absent | Unreadable | Content (s : pystr).

(** A log file, seen through [json.load]: the document it holds, or
    something whose reading raises.  [json.dump] followed by [json.load]
    is taken to give the value back. *)
Inductive log_file := Parsed (v : pyval) | Corrupt.

(** The environment's choices: the [k]-th reading of the clock, the reply
    to the [k]-th GET and POST, the fate of the [k]-th write. *)
Record Env := {
  clock : nat -> datetime;
  get_reply : nat -> pystr -> reply;
  post_reply : nat -> pystr -> message -> reply;
  write_reply : nat -> pystr -> write_outcome
}.

Record World := {
  env : Env;
  domains_txt : txt_file;
  logs : gmap pystr log_file;
  stdout : list text;
  http_gets : list pystr;
  http_posts : list (pystr * message);
  sleeps : list Q;
  clock_reads : nat;
  writes : list pystr
}.

Definition set_domains_txt (f : txt_file) (w : World) : World :=
  {| env := env w; domains_txt := f; logs := logs w; stdout := stdout w;
     http_gets := http_gets w; http_posts := http_posts w; sleeps := sleeps w;
     clock_reads := clock_reads w; writes := writes w |}.

Definition set_logs (l : gmap pystr log_file) (w : World) : World :=
  {| env := env w; domains_txt := domains_txt w; logs := l; stdout := stdout w;
     http_gets := http_gets w; http_posts := http_posts w; sleeps := sleeps w;
     clock_reads := clock_reads w; writes := writes w |}.

Definition set_stdout (o : list text) (w : World) : World :=
  {| env := env w; domains_txt := domains_txt w; logs := logs w; stdout := o;
     http_gets := http_gets w; http_posts := http_posts w; sleeps := sleeps w;
     clock_reads := clock_reads w; writes := writes w |}.

Definition set_http_gets (g : list pystr) (w : World) : World :=
  {| env := env w; domains_txt := domains_txt w; logs := logs w; stdout := stdout w;
     http_gets := g; http_posts := http_posts w; sleeps := sleeps w;
     clock_reads := clock_reads w; writes := writes w |}.

Definition set_http_posts (p : list (pystr * message)) (w : World) : World :=
  {| env := env w; domains_txt := domains_txt w; logs := logs w; stdout := stdout w;
     http_gets := http_gets w; http_posts := p; sleeps := sleeps w;
     clock_reads := clock_reads w; writes := writes w |}.

Definition set_sleeps (s : list Q) (w : World) : World :=
  {| env := env w; domains_txt := domains_txt w; logs := logs w; stdout := stdout w;
     http_gets := http_gets w; http_posts := http_posts w; sleeps := s;
     clock_reads := clock_reads w; writes := writes w |}.

Definition set_clock_reads (n : nat) (w : World) : World :=
  {| env := env w; domains_txt := domains_txt w; logs := logs w; stdout := stdout w;
     http_gets := http_gets w; http_posts := http_posts w; sleeps := sleeps w;
     clock_reads := n; writes := writes w |}.

Definition set_writes (p : list pystr) (w : World) : World :=
  {| env := env w; domains_txt := domains_txt w; logs := logs w; stdout := stdout w;
     http_gets := http_gets w; http_posts := http_posts w; sleeps := sleeps w;
     clock_reads := clock_reads w; writes := p |}.

(** ** The monad: state passing with exceptions *)

Inductive res (A : Type) :=
| Ret (a : A)
| Raise (e : exn).
Arguments Ret {A} a.
Arguments Raise {A} e.

Definition IO (A : Type) : Type := World -> res A * World.

#[global] Instance IO_ret : MRet IO := fun A a w => (Ret a, w).

#[global] Instance IO_bind : MBind IO := fun A B f m w =>
  match m w with
  | (Ret a, w') => f a w'
  | (Raise e, w') => (Raise e, w')
  end.

Definition raise {A} (e : exn) : IO A := fun w => (Raise e, w).

(** [try: body  except <catches>: handler] *)
Definition try_except {A} (body : IO A) (catches : exn -> bool)
    (handler : exn -> IO A) : IO A := fun w =>
  match body w with
  | (Raise e, w') => if catches e then handler e w' else (Raise e, w')
  | r => r
  end.

(** A bare [except:] catches everything. *)
Definition anything (e : exn) : bool := true.

Definition lift {A} (r : exn + A) : IO A :=
  match r with inl e => raise e | inr a => mret a end.

(** *** Primitives *)

Definition print (t : text) : IO unit := fun w =>
  (Ret tt, set_stdout (stdout w ++ [t]) w).

Definition datetime_now : IO datetime := fun w =>
  (Ret (clock (env w) (clock_reads w)), set_clock_reads (S (clock_reads w)) w).

(** [time.sleep(secs)]: a negative argument is a [ValueError]. *)
Definition time_sleep (secs : Q) : IO unit := fun w =>
  if Qle_bool 0 secs then (Ret tt, set_sleeps (sleeps w ++ [secs]) w)
  else (Raise ValueError, w).

Record response := { status_code : Z; body : option pyval }.

(** [requests.get(url, headers=..., timeout=10)] *)
Definition requests_get (url : pystr) : IO response := fun w =>
  let w' := set_http_gets (http_gets w ++ [url]) w in
  match get_reply (env w) (length (http_gets w)) url with
  | Fails t => (Raise (RequestException t), w')
  | Responds c b => (Ret {| status_code := c; body := b |}, w')
  end.

(** [requests.post(url, json=message, timeout=5)] *)
Definition requests_post (url : pystr) (m : message) : IO response := fun w =>
  let w' := set_http_posts (http_posts w ++ [(url, m)]) w in
  match post_reply (env w) (length (http_posts w)) url m with
  | Fails t => (Raise (RequestException t), w')
  | Responds c b => (Ret {| status_code := c; body := b |}, w')
  end.

(** [response.json()] *)
Definition response_json (r : response) : IO pyval :=
  match body r with
  | Some v => mret v
  | None => raise JSONDecodeError
  end.

(** [v.get(k, default)]: only a dict has the method. *)
Definition py_get (v : pyval) (k : pystr) (default : pyval) : IO pyval :=
  match v with
  | PDict d => mret (from_option id default (dict_get d k))
  | _ => raise AttributeError
  end.

(** [sys.exit(code)] *)
Definition sys_exit {A} (code : Z) : IO A := raise (SystemExit code).

Definition nl : pystr := [10].

(** *** Files *)

Definition domains_path : pystr := utf8 "domains.txt".

(** [os.path.exists('domains.txt')] *)
Definition domains_exists : IO bool := fun w =>
  (Ret match domains_txt w with Absent => false | _ => true end, w).

(** [open('domains.txt', 'r', encoding='utf-8')] and the iteration over
    its lines. *)
Definition read_domains_lines : IO (list pystr) := fun w =>
  match domains_txt w with
  | Content s => (Ret (file_lines s), w)
  | Absent | Unreadable => (Raise OSError, w)
  end.

(** [with open('domains.txt', 'w', encoding='utf-8') as f: f.write(s)];
    a write that fails after the open leaves the file empty. *)
Definition write_domains (s : pystr) : IO unit := fun w =>
  let w' := set_writes (writes w ++ [domains_path]) w in
  match write_reply (env w) (length (writes w)) domains_path with
  | WriteOk => (Ret tt, set_domains_txt (Content s) w')
  | OpenFails => (Raise OSError, w')
  | WriteFails => (Raise OSError, set_domains_txt (Content []) w')
  end.

(** [os.path.join(a, b)] *)
Definition path_join (a b : pystr) : pystr :=
  match b with
  | 47 :: _ => b
  | _ => match last a with
         | None => b
         | Some c => if c =? 47 then a ++ b else a ++ [47] ++ b
         end
  end.

(** [os.path.exists(filename)] for a log file. *)
Definition log_exists (filename : pystr) : IO bool := fun w =>
  (Ret match logs w !! filename with Some _ => true | None => false end, w).

(** [with open(filename, 'r', encoding='utf-8') as f: json.load(f)] *)
Definition json_load (filename : pystr) : IO pyval := fun w =>
  match logs w !! filename with
  | Some (Parsed v) => (Ret v, w)
  | Some Corrupt => (Raise JSONDecodeError, w)
  | None => (Raise OSError, w)
  end.

(** [with open(filename, 'w', encoding='utf-8') as f: json.dump(v, f, ...)];
    a dump that fails after the open leaves a truncated file, which no
    longer parses. *)
Definition json_dump (v : pyval) (filename : pystr) : IO unit := fun w =>
  let w' := set_writes (writes w ++ [filename]) w in
  match write_reply (env w) (length (writes w)) filename with
  | WriteOk => (Ret tt, set_logs (<[filename := Parsed v]> (logs w)) w')
  | OpenFails => (Raise OSError, w')
  | WriteFails => (Raise OSError, set_logs (<[filename := Corrupt]> (logs w)) w')
  end.

(** The check URL and the fixed texts both programs share. *)
Definition check_endpoint : pystr :=
  utf8 "https://cgi.urlsec.qq.com/index.php?m=url&a=validUrl&url=".

Definition risk_msg : pystr :=
  utf8 "风险网址拦截，链接可能包含不安全的内容".

Definition alert_head : pystr :=
  utf8 "🚨 微信域名拦截告警" ++ nl ++ nl
  ++ utf8 "检测到域名被微信拦截：" ++ nl ++ utf8 "URL：".

Definition sent_line : text := [Lit (utf8 "✅ 异常通知已发送到微信群")].

Definition refused_line (errmsg : pyval) : text :=
  [Lit (utf8 "⚠️ 通知发送失败："); Fmt errmsg].

Definition http_failed_line (status : Z) : text :=
  [Lit (utf8 "⚠️ 通知发送失败，HTTP状态码："); Fmt (PInt status)].

Definition exception_line (e : exn) : text :=
  [Lit (utf8 "⚠️ 通知发送异常："); FmtExn e].

(** ** [domain_monitor.py] *)

Module domain_monitor.
Section WithConfig.

Variable cfg : Config.

Definition sample_domains : list pystr := [
  utf8 "# 域名列表文件";
  utf8 "# 每行一个域名，以 # 开头的行为注释，会被跳过";
  utf8 "# 修改此文件后，下次检测周期将自动生效";
  [];
  utf8 "# 示例域名（请替换为实际需要监测的域名）";
  utf8 "# www.baidu.com";
  utf8 "# www.qq.com"
].

Definition created_line : text :=
  [Lit (utf8 "📝 已创建示例 domains.txt 文件，请编辑后重新运行程序")].

Definition create_sample_domains_file : IO unit :=
  write_domains (join nl sample_domains);;
  print created_line;;
  sys_exit 0.

(** One turn of [for line in f]. *)
Definition keep_line (domains : list pystr) (line : pystr) : list pystr :=
  let line := strip line in
  if nonempty line && negb (startswith_hash line) then domains ++ [line]
  else domains.

Definition read_failed_line (e : exn) : text :=
  [Lit (utf8 "❌ 读取域名列表失败："); FmtExn e].

Definition load_domains : IO (list pystr) :=
  present ← domains_exists;
  (if negb present then create_sample_domains_file else mret tt);;
  try_except
    (lines ← read_domains_lines;
     mret (fold_left keep_line lines []))
    is_Exception
    (fun e => print (read_failed_line e);; mret []).

(** The request headers are constants and are not recorded. *)
Definition check_wx_domain (url : pystr) : IO pyval :=
  if negb (nonempty url) then mret PNone
  else
    try_except
      (quoted ← lift (quote url);
       let check_url := check_endpoint ++ quoted in
       response ← requests_get check_url;
       if (status_code response =? 200)%Z then response_json response
       else mret PNone)
      is_Exception
      (fun _ => mret PNone).

(** The [message] dict of [send_webhook_notification]; [msg] is
    [result.get('msg', ...)]. *)
Definition alert_message (url : pystr) (msg : pyval) (current_time : pystr) : message :=
  let content : text :=
    [Lit alert_head; Fmt (PStr url);
     Lit (nl ++ utf8 "状态："); Fmt msg;
     Lit (nl ++ utf8 "时间："); Fmt (PStr current_time)] in
  {| msgtype := utf8 "text";
     text_dict :=
       dict_update [(utf8 "content", inl content)]
         (map (fun kv => (fst kv, inr (snd kv))) (NOTIFICATION_CONFIG cfg)) |}.

Definition send_webhook_notification (url : pystr) (result : pyval) : IO unit :=
  status ← py_get result (utf8 "status") PNone;
  if ne_str status (utf8 "abnormal") then mret tt
  else
    try_except
      (now ← datetime_now;
       let current_time := strftime_full now in
       msg ← py_get result (utf8 "msg") (PStr (utf8 "异常"));
       let message := alert_message url msg current_time in
       response ← requests_post (WEBHOOK_URL cfg) message;
       if (status_code response =? 200)%Z then
         result_data ← response_json response;
         errcode ← py_get result_data (utf8 "errcode") PNone;
         if eq_int errcode 0 then print sent_line
         else
           errmsg ← py_get result_data (utf8 "errmsg") PNone;
           print (refused_line errmsg)
       else print (http_failed_line (status_code response)))
      is_Exception
      (fun e => print (exception_line e)).

Definition log_entry (timestamp : pystr) (results : list pyval) : pyval :=
  PDict [(utf8 "timestamp", PStr timestamp); (utf8 "results", PList results)].

Definition save_failed_line (e : exn) : text :=
  [Lit (utf8 "❌ 保存日志失败："); FmtExn e].

(** [existing_logs.append] is looked up before its argument is built, so a
    document that is not a list raises before the clock is read. *)
Definition save_results (date_str : pystr) (results : list pyval) : IO unit :=
  let filename := path_join (LOGS_DIR cfg) (date_str ++ utf8 ".json") in
  present ← log_exists filename;
  existing_logs ←
    (if (present : bool) then
       try_except (json_load filename) anything (fun _ => mret (PList []))
     else mret (PList []));
  match existing_logs with
  | PList entries =>
      now ← datetime_now;
      let existing_logs := PList (entries ++ [log_entry (strftime_full now) results]) in
      try_except (json_dump existing_logs filename) is_Exception
        (fun e => print (save_failed_line e))
  | _ => raise AttributeError
  end.

(** The counters and the batch of one cycle. *)
Record tally := {
  success_count : nat;
  abnormal_count : nat;
  unknown_count : nat;
  batch_results : list pyval
}.

Definition tally0 : tally :=
  {| success_count := 0; abnormal_count := 0; unknown_count := 0;
     batch_results := [] |}.

Definition count_success (t : tally) : tally :=
  {| success_count := S (success_count t); abnormal_count := abnormal_count t;
     unknown_count := unknown_count t; batch_results := batch_results t |}.

Definition count_abnormal (t : tally) : tally :=
  {| success_count := success_count t; abnormal_count := S (abnormal_count t);
     unknown_count := unknown_count t; batch_results := batch_results t |}.

Definition count_unknown (t : tally) : tally :=
  {| success_count := success_count t; abnormal_count := abnormal_count t;
     unknown_count := S (unknown_count t); batch_results := batch_results t |}.

Definition append_record (r : pyval) (t : tally) : tally :=
  {| success_count := success_count t; abnormal_count := abnormal_count t;
     unknown_count := unknown_count t; batch_results := batch_results t ++ [r] |}.

Definition normal_line (data_msg : pyval) : text :=
  [Lit (utf8 "✅ 正常 - "); Fmt data_msg].

Definition abnormal_line (display_msg : pyval) : text :=
  [Lit (utf8 "❌ 异常 - "); Fmt display_msg].

Definition notifying_line : text :=
  [Lit (utf8 "   💬 发送异常通知到微信群...")].

Definition unknown_line (re_code data_msg : pyval) : text :=
  [Lit (utf8 "⚠️ 未知 - reCode: "); Fmt re_code; Lit (utf8 ", msg: "); Fmt data_msg].

Definition failed_line : text := [Lit (utf8 "❌ 请求失败")].

Definition abnormal_result (display_msg : pyval) : pyval :=
  PDict [(utf8 "status", PStr (utf8 "abnormal")); (utf8 "msg", display_msg)].

Definition checked_record (domain : pystr) (result : pyval) (time : pystr) : pyval :=
  PDict [(utf8 "domain", PStr domain); (utf8 "result", result);
         (utf8 "time", PStr time)].

Definition failed_record (domain : pystr) (time : pystr) : pyval :=
  PDict [(utf8 "domain", PStr domain); (utf8 "result", PNone);
         (utf8 "error", PStr (utf8 "API调用失败")); (utf8 "time", PStr time)].

(** The branch on the check result inside [for domain in domains]: the
    classification, the notification, the counter and the record. *)
Definition record_result (t : tally) (domain : pystr) (result : pyval) : IO tally :=
  if truthy result && is_dict result && dict_has result (utf8 "reCode") then
    re_code ← py_get result (utf8 "reCode") PNone;
    data_msg ← py_get result (utf8 "data") (PStr []);
    t ←
      (if eq_int re_code (-202) then
         print (normal_line data_msg);;
         mret (count_success t)
       else if eq_int re_code (-203) then
         let display_msg := data_msg in
         print (abnormal_line display_msg);;
         print notifying_line;;
         send_webhook_notification domain (abnormal_result display_msg);;
         mret (count_abnormal t)
       else if eq_int re_code 0 then
         let display_msg := PStr risk_msg in
         print (abnormal_line display_msg);;
         print notifying_line;;
         send_webhook_notification domain (abnormal_result display_msg);;
         mret (count_abnormal t)
       else
         print (unknown_line re_code data_msg);;
         mret (count_unknown t));
    now ← datetime_now;
    mret (append_record (checked_record domain result (strftime_time now)) t)
  else
    print failed_line;;
    now ← datetime_now;
    mret (append_record (failed_record domain (strftime_time now))
            (count_unknown t)).

Definition checking_line (domain : pystr) : text :=
  [Lit (utf8 "检测 "); Fmt (PStr domain); Lit (utf8 " ... ")].

(** The body of [for domain in domains]. *)
Definition check_domain (t : tally) (domain : pystr) : IO tally :=
  print (checking_line domain);;
  result ← check_wx_domain domain;
  t ← record_result t domain result;
  time_sleep (1 # 2);;
  mret t.

Fixpoint check_domains (t : tally) (domains : list pystr) : IO tally :=
  match domains with
  | [] => mret t
  | domain :: rest => t ← check_domain t domain; check_domains t rest
  end.

Definition interval : Q := inject_Z (CHECK_INTERVAL cfg).

Definition count (n : nat) : piece := Fmt (PInt (Z.of_nat n)).

Definition no_domains_line (now : datetime) : text :=
  [Lit (utf8 "["); Fmt (PStr (strftime_full now));
   Lit (utf8 "] ⚠️ 没有找到需要检测的域名，请检查 domains.txt 文件")].

Definition retry_line : text :=
  [Lit (utf8 "等待 "); Fmt (PInt (CHECK_INTERVAL cfg)); Lit (utf8 " 秒后重试..." ++ nl)].

(** The body of [while True]. *)
Definition monitor_cycle : IO unit :=
  domains ← load_domains;
  if negb (match domains with [] => false | _ => true end) then
    now ← datetime_now;
    print (no_domains_line now);;
    print retry_line;;
    time_sleep interval
  else
    current_time ← datetime_now;
    let date_str := strftime_date current_time in
    let time_str := strftime_full current_time in
    print [Lit (nl ++ utf8 "["); Fmt (PStr time_str); Lit (utf8 "] 🔍 开始检测 ");
           count (length domains); Lit (utf8 " 个域名...")];;
    t ← check_domains tally0 domains;
    print [Lit (nl ++ utf8 "📊 本次检测完成：")];;
    print [Lit (utf8 "   ✅ 正常："); count (success_count t); Lit (utf8 " 个")];;
    print [Lit (utf8 "   ❌ 异常："); count (abnormal_count t); Lit (utf8 " 个")];;
    print [Lit (utf8 "   ⚠️ 未知："); count (unknown_count t); Lit (utf8 " 个")];;
    print [];;
    save_results date_str (batch_results t);;
    print [Lit (utf8 "💾 检测日志已保存到 "); Fmt (PStr (LOGS_DIR cfg)); Lit (utf8 "/");
           Fmt (PStr date_str); Lit (utf8 ".json")];;
    print [Lit (nl ++ utf8 "⏱️ 等待 "); Fmt (PInt (CHECK_INTERVAL cfg));
           Lit (utf8 " 秒后进行下次检测..." ++ nl)];;
    print [Lit (repeat 45 60)];;
    print [];;
    time_sleep interval.

(** The first [cycles] turns of the loop; the loop itself has no exit. *)
Fixpoint monitor_loop (cycles : nat) : IO unit :=
  match cycles with
  | O => mret tt
  | S n => monitor_cycle;; monitor_loop n
  end.

Definition run_monitor (cycles : nat) : IO unit :=
  print [Lit (repeat 61 60)];;
  print [Lit (utf8 "微信域名定时监测工具已启动")];;
  print [Lit (utf8 "检测间隔："); Fmt (PInt (CHECK_INTERVAL cfg)); Lit (utf8 " 秒")];;
  print [Lit (utf8 "按 Ctrl+C 可以停止程序")];;
  print [Lit (repeat 61 60)];;
  print [];;
  monitor_loop cycles.

Definition is_KeyboardInterrupt (e : exn) : bool :=
  match e with KeyboardInterrupt => true | _ => false end.

Definition main (cycles : nat) : IO unit :=
  try_except (run_monitor cycles) is_KeyboardInterrupt
    (fun _ =>
       print [Lit (nl ++ nl ++ utf8 "👋 程序已停止")];;
       print [Lit (utf8 "感谢使用！")]).

End WithConfig.
End domain_monitor.

(** An exception that leaves [main] ends the process: [SystemExit] with
    its code, anything else with a traceback and status 1. *)
Definition exit_status {A} (r : res A) : option Z :=
  match r with
  | Ret _ => None
  | Raise (SystemExit code) => Some code
  | Raise _ => Some 1%Z
  end.

(** ** [domain_check.py] *)

Module domain_check.
Section WithConfig.

Variable WEBHOOK_URL : pystr.

(** The [message] dict of [send_webhook_notification]; [msg] is
    [result.get('msg', ...)]. *)
Definition alert_message (url : pystr) (msg : pyval) (current_time : pystr) : message :=
  let content : text :=
    [Lit alert_head; Fmt (PStr url);
     Lit (nl ++ utf8 "状态："); Fmt msg;
     Lit (nl ++ utf8 "时间："); Fmt (PStr current_time);
     Lit (nl ++ nl ++ utf8 "🔧 【开发调试消息】")] in
  {| msgtype := utf8 "text";
     text_dict := [(utf8 "content", inl content)] |}.

Definition send_webhook_notification (url : pystr) (result : pyval) : IO unit :=
  status ← py_get result (utf8 "status") PNone;
  if ne_str status (utf8 "abnormal") then mret tt
  else
    try_except
      (now ← datetime_now;
       let current_time := strftime_full now in
       msg ← py_get result (utf8 "msg") (PStr (utf8 "异常"));
       let message := alert_message url msg current_time in
       response ← requests_post WEBHOOK_URL message;
       if (status_code response =? 200)%Z then
         result_data ← response_json response;
         errcode ← py_get result_data (utf8 "errcode") PNone;
         if eq_int errcode 0 then print sent_line
         else
           errmsg ← py_get result_data (utf8 "errmsg") PNone;
           print (refused_line errmsg)
       else print (http_failed_line (status_code response)))
      is_Exception
      (fun e => print (exception_line e)).

Definition check_wx_domain (url : pystr) : IO pyval :=
  if negb (nonempty url) then mret PNone
  else
    try_except
      (quoted ← lift (quote url);
       let check_url := check_endpoint ++ quoted in
       response ← requests_get check_url;
       if (status_code response =? 200)%Z then response_json response
       else mret PNone)
      is_Exception
      (fun _ => mret PNone).

Definition normal_line (display_msg : pyval) : text :=
  [Lit (utf8 "✅ 正常 - "); Fmt display_msg].

Definition abnormal_line (display_msg : pyval) : text :=
  [Lit (utf8 "❌ 异常 - "); Fmt display_msg].

Definition unknown_line (re_code data_msg : pyval) : text :=
  [Lit (utf8 "⚠️ 未知 - reCode: "); Fmt re_code; Lit (utf8 ", msg: "); Fmt data_msg].

Definition failed_line : text := [Lit (utf8 "⚠️ 请求失败，无法获取数据")].

Definition is_not_None (v : pyval) : bool :=
  match v with PNone => false | _ => true end.

Definition checking_line (url : pystr) : text :=
  [Lit (nl ++ utf8 "🔍 正在检测域名: "); Fmt (PStr url)].

Definition rule_line : text := [Lit (repeat 45 50)].

Definition raw_header_line : text := [Lit (utf8 "📦 原始响应数据:")].

(** One turn of the loop of [main], from the line that runs the check, for
    an input [url] that is neither empty nor a quit command. *)
Definition main_check (url : pystr) : IO unit :=
  print (checking_line url);;
  print rule_line;;
  result ← check_wx_domain url;
  print raw_header_line;;
  print [Dumps result];;
  print [];;
  re_code ← py_get result (utf8 "reCode") PNone;
  (if is_not_None re_code then
     if eq_int re_code (-202) then
       display_msg ← py_get result (utf8 "data") (PStr []);
       print (normal_line display_msg)
     else if eq_int re_code (-203) then
       display_msg ← py_get result (utf8 "data") (PStr []);
       print (abnormal_line display_msg);;
       let notification_result :=
         PDict [(utf8 "status", PStr (utf8 "abnormal")); (utf8 "msg", display_msg)] in
       send_webhook_notification url notification_result
     else if eq_int re_code 0 then
       let display_msg := PStr risk_msg in
       print (abnormal_line display_msg);;
       let notification_result :=
         PDict [(utf8 "status", PStr (utf8 "abnormal")); (utf8 "msg", display_msg)] in
       send_webhook_notification url notification_result
     else
       data_msg ← py_get result (utf8 "data") (PStr []);
       print (unknown_line re_code data_msg)
   else print failed_line);;
  print rule_line.

End WithConfig.
End domain_check.

(** * Vocabulary of the properties

    Named observations on the model: the worlds that the operations leave,
    the branch a check result takes, and the contracts stated of the
    checker and of the dispatcher. *)

Local Close Scope N_scope.
Local Open Scope nat_scope.

Section Vocabulary.

Import domain_monitor.

(** ** The checker and the dispatcher *)

(** What a checker owes its caller: it returns, never raises; it sends one
    GET when the URL is not empty and can be quoted, and none otherwise;
    it hands back the parsed body of a 200 response and [None] in every
    other case. *)
Definition check_contract (check : pystr -> IO pyval) : Prop :=
  forall url w,
    (exists quoted,
        nonempty url = true /\ quote url = inr quoted /\
        let check_url := check_endpoint ++ quoted in
        exists r,
          check url w = (Ret r, set_http_gets (http_gets w ++ [check_url]) w) /\
          match get_reply (env w) (length (http_gets w)) check_url with
          | Fails _ => r = PNone
          | Responds status body =>
              if (status =? 200)%Z then r = from_option id PNone body
              else r = PNone
          end)
    \/ ((nonempty url = false \/ exists e, quote url = inl e) /\
        check url w = (Ret PNone, w)).


(** The one line a dispatch prints, by the webhook's reply. *)
Definition delivery_line (r : reply) : text :=
  match r with
  | Fails t => exception_line (RequestException t)
  | Responds status body =>
      if (status =? 200)%Z then
        match body with
        | None => exception_line JSONDecodeError
        | Some (PDict d) =>
            if eq_int (from_option id PNone (dict_get d (utf8 "errcode"))) 0
            then sent_line
            else refused_line (from_option id PNone (dict_get d (utf8 "errmsg")))
        | Some _ => exception_line AttributeError
        end
      else http_failed_line status
  end.

(** The world after one dispatch of [m] to [url]: the clock was read, one
    POST went out, one line was printed. *)
Definition dispatched (url : pystr) (m : message) (w : World) : World :=
  let r := post_reply (env w) (length (http_posts w)) url m in
  set_stdout (stdout w ++ [delivery_line r])
    (set_http_posts (http_posts w ++ [(url, m)])
       (set_clock_reads (S (clock_reads w)) w)).

(** The time the next reading of the clock shows, as the alert and the
    log entry print it. *)
Definition stamp (w : World) : pystr :=
  strftime_full (clock (env w) (clock_reads w)).


(** ** The classification of a check result *)

(** The four statuses of the specification. *)
Inductive ClassifiedStatus := Normal | Abnormal | Unknown | Failed.

(** The value under [reCode], for a result that is a dict holding the key. *)
Definition raw_code (result : pyval) : option pyval :=
  match result with
  | PDict d => dict_get d (utf8 "reCode")
  | _ => None
  end.

(** [result.get('data', '')] *)
Definition raw_data (result : pyval) : pyval :=
  match result with
  | PDict d => from_option id (PStr []) (dict_get d (utf8 "data"))
  | _ => PStr []
  end.

(** The branch of [record_result], under the names of the specification's
    table. *)
Definition status_of (result : pyval) : ClassifiedStatus :=
  match raw_code result with
  | Some c =>
      if eq_int c (-202) then Normal
      else if eq_int c (-203) || eq_int c 0 then Abnormal
      else Unknown
  | None => Failed
  end.

(** The message shown and sent for an abnormal result. *)
Definition display_msg (result : pyval) : pyval :=
  match raw_code result with
  | Some c => if eq_int c (-203) then raw_data result else PStr risk_msg
  | None => PStr risk_msg
  end.

(** ** Worlds after an operation *)

(** After [print(l)]. *)
Definition printed (l : text) (w : World) : World :=
  set_stdout (stdout w ++ [l]) w.

(** After [datetime.now()]. *)
Definition ticked (w : World) : World :=
  set_clock_reads (S (clock_reads w)) w.

(** After [time.sleep(secs)]. *)
Definition slept (secs : Q) (w : World) : World :=
  set_sleeps (sleeps w ++ [secs]) w.

(** The time the next reading of the clock shows, as a record prints it. *)
Definition time_of (w : World) : pystr :=
  strftime_time (clock (env w) (clock_reads w)).

(** The counter that goes with a status. *)
Definition counted (s : ClassifiedStatus) (t : tally) : tally :=
  match s with
  | Normal => count_success t
  | Abnormal => count_abnormal t
  | Unknown | Failed => count_unknown t
  end.

(** The world after the lines and the notification of one result. *)
Definition announced (cfg : Config) (domain : pystr) (result : pyval) (w : World) : World :=
  match status_of result with
  | Normal => printed (normal_line (raw_data result)) w
  | Abnormal =>
      let w1 := printed notifying_line
                  (printed (abnormal_line (display_msg result)) w) in
      dispatched (WEBHOOK_URL cfg)
        (alert_message cfg domain (display_msg result) (stamp w1)) w1
  | Unknown =>
      printed (unknown_line (from_option id PNone (raw_code result))
                 (raw_data result)) w
  | Failed => printed failed_line w
  end.

(** The record kept for one result. *)
Definition record_of (domain : pystr) (result : pyval) (time : pystr) : pyval :=
  match status_of result with
  | Failed => failed_record domain time
  | _ => checked_record domain result time
  end.


(** The part of the world that outlives a cycle and that checking never
    touches: the environment and the files. *)
Definition same_files (w w' : World) : Prop :=
  env w' = env w /\ domains_txt w' = domains_txt w /\ logs w' = logs w
  /\ writes w' = writes w.

(** The requests one domain causes: one, unless the name is empty or
    cannot be quoted. *)
Definition requests_for (domain : pystr) : list pystr :=
  if nonempty domain then
    match quote domain with
    | inr quoted => [check_endpoint ++ quoted]
    | inl _ => []
    end
  else [].

(** ** Reading a batch record back *)

(** [rec.get(k)] *)
Definition record_field (k : pystr) (rec : pyval) : pyval :=
  match rec with
  | PDict d => from_option id PNone (dict_get d k)
  | _ => PNone
  end.





(** ** The list file and the log files *)

(** A line that names a domain: stripped, it is neither empty nor a
    comment. *)
Definition is_entry (line : pystr) : bool :=
  nonempty (strip line) && negb (startswith_hash (strip line)).

(** [merged] interleaves [xs] and [ys], each in its own order. *)
Inductive Interleaved {A} : list A -> list A -> list A -> Prop :=
| interleaved_nil : Interleaved [] [] []
| interleaved_left x xs ys merged :
    Interleaved xs ys merged -> Interleaved (x :: xs) ys (x :: merged)
| interleaved_right y xs ys merged :
    Interleaved xs ys merged -> Interleaved xs (y :: ys) (y :: merged).

(** The world after the attempt to write the sample file. *)
Definition bootstrapped (w : World) : res (list pystr) * World :=
  let w' := set_writes (writes w ++ [domains_path]) w in
  match write_reply (env w) (length (writes w)) domains_path with
  | WriteOk =>
      (Raise (SystemExit 0),
       printed domain_monitor.created_line
         (set_domains_txt (Content (join nl domain_monitor.sample_domains)) w'))
  | OpenFails => (Raise OSError, w')
  | WriteFails => (Raise OSError, set_domains_txt (Content []) w')
  end.

(** The file of one date. *)
Definition log_path (cfg : Config) (date_str : pystr) : pystr :=
  path_join (LOGS_DIR cfg) (date_str ++ utf8 ".json").

(** What [save_results] takes up from the file: the entries of a list, no
    entry when the file is missing or cannot be read, and nothing at all
    when the file holds a document that is not a list. *)
Definition existing_entries (w : World) (filename : pystr) : option (list pyval) :=
  match logs w !! filename with
  | None | Some Corrupt => Some []
  | Some (Parsed (PList entries)) => Some entries
  | Some (Parsed _) => None
  end.

(** The world after [save_results] took up [entries]. *)
Definition saved (cfg : Config) (date_str : pystr) (results entries : list pyval)
    (w : World) : World :=
  let filename := log_path cfg date_str in
  let w1 := set_writes (writes w ++ [filename]) (ticked w) in
  match write_reply (env w) (length (writes w)) filename with
  | WriteOk =>
      set_logs
        (<[filename :=
             Parsed (PList (entries ++ [domain_monitor.log_entry (stamp w) results]))]>
           (logs w)) w1
  | OpenFails => printed (domain_monitor.save_failed_line OSError) w1
  | WriteFails =>
      printed (domain_monitor.save_failed_line OSError)
        (set_logs (<[filename := Corrupt]> (logs w)) w1)
  end.

(** The world after the banner of [run_monitor]. *)
Definition started (cfg : Config) (w : World) : World :=
  printed [] (printed [Lit (repeat 61%N 60)]
    (printed [Lit (utf8 "按 Ctrl+C 可以停止程序")]
      (printed [Lit (utf8 "检测间隔："); Fmt (PInt (CHECK_INTERVAL cfg)); Lit (utf8 " 秒")]
        (printed [Lit (utf8 "微信域名定时监测工具已启动")]
          (printed [Lit (repeat 61%N 60)] w))))).

(** ** Contracts and counters *)




(** The URL requested for a domain. *)
Definition check_url (domain : pystr) : pystr :=
  check_endpoint ++ flat_map quote_byte (flat_map utf8_encode_char domain).


(** ** What the loop saw of one domain *)




(** ** The list file and the logs over many cycles *)

(** The domains a list file names. *)
Definition entries (content : pystr) : list pystr :=
  map strip (List.filter is_entry (file_lines content)).


(** ** Loaded names, alert texts, and the single-shot checker *)

(** A name as the loader hands it out: not empty, no white space at either
    end, no [#] in front. *)
Definition clean_domain (d : pystr) : bool :=
  match d, last d with
  | c :: _, Some c' => negb (isspace c) && negb (isspace c') && negb (c =? 35)%N
  | _, _ => false
  end.

(** The f-string of the monitor's alert. *)
Definition alert_text (url : pystr) (msg : pyval) (current_time : pystr) : text :=
  [Lit alert_head; Fmt (PStr url);
   Lit (nl ++ utf8 "状态："); Fmt msg;
   Lit (nl ++ utf8 "时间："); Fmt (PStr current_time)].



(** A byte that [quote] leaves in a URL: an unreserved character, the
    slash, or the percent sign of an escape. *)
Definition url_char (c : N) : bool := quote_safe c || (c =? 37)%N.

(** A code point of a [str]. *)
Definition code_point (c : N) : Prop := (c <= 1114111)%N.


(** ** The report of a cycle *)





End Vocabulary.

(** * Concrete worlds *)

Module Scenario.

Definition cfg0 : Config :=
  {| WEBHOOK_URL := utf8 "https://qyapi.weixin.qq.com/cgi-bin/webhook/send?key=k";
     NOTIFICATION_CONFIG := [(utf8 "mentioned_list", PList [PStr (utf8 "u1")])];
     CHECK_INTERVAL := 60;
     LOGS_DIR := utf8 "logs" |}.

Definition noon : datetime :=
  {| year := 2024; month := 1; day := 2; hour := 12; minute := 0; second := 0 |}.

Definition today : pystr := utf8 "logs/2024-01-02.json".

(** A 200 response of the validation endpoint. *)
Definition verdict (code : Z) (msg : pystr) : pyval :=
  PDict [(utf8 "reCode", PInt code); (utf8 "data", PStr msg)].

Definition a_example : pystr := utf8 "a.example".
Definition b_example : pystr := utf8 "b.example".

(** A 200 response whose code is null. *)
Definition null_code : pyval := PDict [(utf8 "reCode", PNone)].

Definition n_example : pystr := utf8 "n.example".

(** The endpoint finds [a.example] normal and [b.example] blocked, answers
    with a null code for [n.example], and times out on everything else. *)
Definition endpoint (url : pystr) : reply :=
  if bool_decide (url = check_endpoint ++ a_example)
  then Responds 200 (Some (verdict (-202) (utf8 "ok")))
  else if bool_decide (url = check_endpoint ++ b_example)
  then Responds 200 (Some (verdict 0 []))
  else if bool_decide (url = check_endpoint ++ n_example)
  then Responds 200 (Some null_code)
  else Fails TimedOut.

Definition webhook_ok : reply :=
  Responds 200 (Some (PDict [(utf8 "errcode", PInt 0); (utf8 "errmsg", PStr (utf8 "ok"))])).


Definition env_of (post : reply) (write : nat -> write_outcome) : Env :=
  {| clock := fun _ => noon;
     get_reply := fun _ url => endpoint url;
     post_reply := fun _ _ _ => post;
     write_reply := fun k _ => write k |}.

Definition world_of (e : Env) (f : txt_file) (l : gmap pystr log_file) : World :=
  {| env := e; domains_txt := f; logs := l; stdout := []; http_gets := [];
     http_posts := []; sleeps := []; clock_reads := 0; writes := [] |}.

Definition always (o : write_outcome) : nat -> write_outcome := fun _ => o.

(** A list file with two entries among comments, blanks and padding. *)
Definition list_file : pystr :=
  utf8 "# monitored" ++ nl ++ a_example ++ [13; 10]%N ++ nl
  ++ utf8 "   # b.example is next" ++ nl ++ utf8 "  b.example  " ++ nl.



Definition quiet_world (f : txt_file) : World :=
  world_of (env_of webhook_ok (always WriteOk)) f ∅.

Definition batch1 : list pyval := [PStr (utf8 "first")].
Definition batch2 : list pyval := [PStr (utf8 "second")].
Definition older : pyval := PStr (utf8 "older").

End Scenario.


(** * Properties *)

Ltac io_unfold :=
  unfold mbind, IO_bind, mret, IO_ret, raise, try_except, lift, sys_exit in *.

(** ** The domain checker *)

Lemma quote_raises url e : quote url = inl e -> e = UnicodeEncodeError.
Proof.
  unfold quote. destruct (existsb is_surrogate url); congruence.
Qed.

Lemma monitor_check_contract : check_contract domain_monitor.check_wx_domain.
Proof.
  intros url w. unfold domain_monitor.check_wx_domain.
  destruct (nonempty url) eqn:Hn; simpl; [| right; eauto].
  destruct (quote url) as [e | q] eqn:Hq.
  - right. split; [eauto |]. apply quote_raises in Hq as ->.
    io_unfold. reflexivity.
  - left. exists q. repeat split; try reflexivity.
    io_unfold. simpl. unfold requests_get, response_json.
    destruct (get_reply _ _ _) as [t | c b]; simpl.
    + eexists; split; reflexivity.
    + destruct (c =? 200)%Z.
      * destruct b; simpl; eexists; split; reflexivity.
      * eexists; split; reflexivity.
Qed.

(** The two programs carry the same checker. *)
Lemma check_wx_domain_same :
  domain_check.check_wx_domain = domain_monitor.check_wx_domain.
Proof. reflexivity. Qed.

(** The checker never raises. *)
Lemma check_wx_domain_returns url w :
  exists r w', domain_monitor.check_wx_domain url w = (Ret r, w').
Proof.
  destruct (monitor_check_contract url w) as [(q & _ & _ & r & H & _) | [_ H]];
    eauto.
Qed.

(** ** The notification dispatcher *)

Lemma monitor_send_abnormal cfg url msg w :
  domain_monitor.send_webhook_notification cfg url
    (domain_monitor.abnormal_result msg) w
  = (Ret tt,
     dispatched (WEBHOOK_URL cfg)
       (domain_monitor.alert_message cfg url msg (stamp w)) w).
Proof.
  unfold domain_monitor.send_webhook_notification.
  change (py_get (domain_monitor.abnormal_result msg) (utf8 "status") PNone)
    with (mret (M := IO) (PStr (utf8 "abnormal"))).
  io_unfold. simpl.
  unfold dispatched, stamp, requests_post, response_json, delivery_line. simpl.
  destruct (post_reply _ _ _ _) as [t | c b]; simpl; [reflexivity |].
  destruct (c =? 200)%Z; simpl; [| reflexivity].
  destruct b as [[| | | | | | d] |]; simpl; try reflexivity.
  destruct (eq_int _ 0); reflexivity.
Qed.




(** ** Python equality with an int literal *)



Lemma eq_int_PInt n z : eq_int (PInt n) z = true <-> n = z.
Proof. simpl. apply Z.eqb_eq. Qed.

(** ** The branch a check result takes in the monitor loop *)

Lemma has_recode_raw_code result :
  truthy result && is_dict result && dict_has result (utf8 "reCode")
  = match raw_code result with Some _ => true | None => false end.
Proof.
  destruct result as [| b | n | f | s | l | d]; cbn [raw_code is_dict];
    try (rewrite andb_false_r; reflexivity).
  rewrite andb_true_r. destruct d as [| kv d]; reflexivity.
Qed.

Section Monitor.

Import domain_monitor.
Variable cfg : Config.

(** [record_result] returns, and this is what it leaves. *)
Lemma record_result_run t domain result w :
  record_result cfg t domain result w
  = let w1 := announced cfg domain result w in
    (Ret (append_record (record_of domain result (time_of w1))
            (counted (status_of result) t)),
     ticked w1).
Proof.
  unfold record_result. rewrite has_recode_raw_code.
  unfold announced, record_of, status_of, display_msg.
  destruct result as [| | | | | | d]; try reflexivity.
  cbn [raw_code raw_data].
  destruct (dict_get d (utf8 "reCode")) as [c |] eqn:Hc; [| reflexivity].
  unfold py_get. rewrite Hc.
  io_unfold. cbn [from_option id].
  destruct (eq_int c (-202)) eqn:H202; [reflexivity |].
  destruct (eq_int c (-203)) eqn:H203.
  - cbn [orb]. unfold print at 1 2.
    rewrite monitor_send_abnormal. reflexivity.
  - cbn [orb]. destruct (eq_int c 0) eqn:H0; [| reflexivity].
    unfold print at 1 2.
    rewrite monitor_send_abnormal. reflexivity.
Qed.


Lemma same_files_refl w : same_files w w.
Proof. repeat split. Qed.



Lemma check_wx_domain_frame url w :
  exists result w',
    check_wx_domain url w = (Ret result, w')
    /\ http_gets w' = http_gets w ++ requests_for url
    /\ http_posts w' = http_posts w
    /\ stdout w' = stdout w
    /\ sleeps w' = sleeps w
    /\ clock_reads w' = clock_reads w
    /\ same_files w w'.
Proof.
  unfold requests_for.
  destruct (monitor_check_contract url w)
    as [(q & Hn & Hq & r & H & _) | [Hno H]].
  - exists r. eexists. split; [exact H |]. rewrite Hn, Hq. cbn.
    repeat split.
  - exists PNone, w. split; [exact H |].
    destruct Hno as [-> | [e ->]].
    + rewrite app_nil_r. repeat split.
    + destruct (nonempty url); rewrite app_nil_r; repeat split.
Qed.


(** *** Records and counters *)









End Monitor.

(** ** The domain list loader *)

Lemma fold_keep_line lines : forall acc,
  fold_left domain_monitor.keep_line lines acc
  = acc ++ map strip (List.filter is_entry lines).
Proof.
  induction lines as [| line rest IH]; intros acc; cbn [fold_left List.filter].
  - cbn. symmetry. apply app_nil_r.
  - rewrite IH. unfold domain_monitor.keep_line.
    fold (is_entry line). destruct (is_entry line); [| reflexivity].
    cbn [map]. rewrite <- app_assoc. reflexivity.
Qed.

Lemma filter_interleaved (valid junk merged : list pystr) :
  Interleaved valid junk merged ->
  Forall (fun l => is_entry l = true) valid ->
  Forall (fun l => is_entry l = false) junk ->
  List.filter is_entry merged = valid.
Proof.
  induction 1 as [| x xs ys merged _ IH | y xs ys merged _ IH];
    intros Hv Hj; cbn [List.filter].
  - reflexivity.
  - inversion Hv as [| ? ? Hx Hxs]; subst. rewrite Hx, IH; auto.
  - inversion Hj as [| ? ? Hy Hys]; subst. rewrite Hy. auto.
Qed.

Lemma load_domains_content w content :
  domains_txt w = Content content ->
  domain_monitor.load_domains w
  = (Ret (map strip (List.filter is_entry (file_lines content))), w).
Proof.
  intros H. unfold domain_monitor.load_domains, domains_exists, read_domains_lines.
  io_unfold. rewrite H. cbn [negb]. rewrite H.
  rewrite fold_keep_line. reflexivity.
Qed.

Lemma load_domains_unreadable w :
  domains_txt w = Unreadable ->
  domain_monitor.load_domains w
  = (Ret [], printed (domain_monitor.read_failed_line OSError) w).
Proof.
  intros H. unfold domain_monitor.load_domains, domains_exists, read_domains_lines.
  io_unfold. rewrite H. cbn [negb]. rewrite H. reflexivity.
Qed.

Lemma load_domains_absent w :
  domains_txt w = Absent -> domain_monitor.load_domains w = bootstrapped w.
Proof.
  intros H. unfold domain_monitor.load_domains, domains_exists, bootstrapped.
  unfold domain_monitor.create_sample_domains_file, write_domains.
  io_unfold. rewrite H. cbn [negb].
  destruct (write_reply _ _ _); reflexivity.
Qed.


Lemma loaded_nonempty w domains w' :
  domain_monitor.load_domains w = (Ret domains, w') ->
  Forall (fun d => nonempty d = true) domains.
Proof.
  destruct (domains_txt w) as [| | content] eqn:H.
  - rewrite (load_domains_absent w H). unfold bootstrapped.
    destruct (write_reply _ _ _); discriminate.
  - rewrite (load_domains_unreadable w H). intros [= <- <-]. constructor.
  - rewrite (load_domains_content w content H). intros [= <- <-].
    apply List.Forall_forall. intros d Hd.
    apply List.in_map_iff in Hd as (l & <- & Hl).
    apply filter_In in Hl as [_ Hl]. unfold is_entry in Hl.
    apply andb_true_iff in Hl. tauto.
Qed.

(** ** The log persister *)

Lemma save_results_run cfg date_str results w entries :
  existing_entries w (log_path cfg date_str) = Some entries ->
  domain_monitor.save_results cfg date_str results w
  = (Ret tt, saved cfg date_str results entries w).
Proof.
  unfold existing_entries, domain_monitor.save_results, saved.
  fold (log_path cfg date_str). set (filename := log_path cfg date_str).
  unfold log_exists, json_load, json_dump, datetime_now. io_unfold.
  unfold anything, stamp, ticked.
  destruct (logs w !! filename) as [[v |] |] eqn:Hfile.
  - destruct v; try discriminate. intros [= ->].
    rewrite Hfile. cbn [writes env set_clock_reads logs].
    destruct (write_reply _ _ _); reflexivity.
  - intros [= <-]. rewrite Hfile. cbn [writes env set_clock_reads logs app].
    destruct (write_reply _ _ _); reflexivity.
  - intros [= <-]. cbn [writes env set_clock_reads logs app].
    destruct (write_reply _ _ _); reflexivity.
Qed.

(** A log file that parses to something other than a list makes
    [save_results] raise, before anything is written. *)
Lemma save_results_not_a_list cfg date_str results w :
  existing_entries w (log_path cfg date_str) = None ->
  domain_monitor.save_results cfg date_str results w = (Raise AttributeError, w).
Proof.
  unfold existing_entries, domain_monitor.save_results.
  fold (log_path cfg date_str). set (filename := log_path cfg date_str).
  unfold log_exists, json_load. io_unfold. unfold anything.
  destruct (logs w !! filename) as [[v |] |] eqn:Hfile; try discriminate.
  rewrite Hfile. destruct v; try discriminate; reflexivity.
Qed.

Lemma saved_logs_ok cfg date_str results entries w :
  write_reply (env w) (length (writes w)) (log_path cfg date_str) = WriteOk ->
  logs (saved cfg date_str results entries w)
  = <[log_path cfg date_str :=
        Parsed (PList (entries ++ [domain_monitor.log_entry (stamp w) results]))]>
      (logs w).
Proof. unfold saved. intros ->. reflexivity. Qed.

Lemma saved_frame cfg date_str results entries w :
  env (saved cfg date_str results entries w) = env w
  /\ writes (saved cfg date_str results entries w)
     = writes w ++ [log_path cfg date_str]
  /\ http_gets (saved cfg date_str results entries w) = http_gets w
  /\ http_posts (saved cfg date_str results entries w) = http_posts w
  /\ domains_txt (saved cfg date_str results entries w) = domains_txt w
  /\ sleeps (saved cfg date_str results entries w) = sleeps w.
Proof.
  unfold saved. destruct (write_reply _ _ _); cbn; repeat split.
Qed.


(** ** Running a monadic block *)

Lemma print_run l w : print l w = (Ret tt, printed l w).
Proof. reflexivity. Qed.

Lemma datetime_now_run w :
  datetime_now w = (Ret (clock (env w) (clock_reads w)), ticked w).
Proof. reflexivity. Qed.

(** Projections of a world through the transformers. *)
Ltac fields :=
  cbn [printed ticked slept set_stdout set_clock_reads set_sleeps
       set_http_gets set_http_posts set_logs set_writes set_domains_txt
       env domains_txt logs stdout http_gets http_posts sleeps clock_reads
       writes].


(** One statement of a monadic block. *)
Ltac io_step :=
  unfold mbind, IO_bind at 1;
  first [rewrite print_run | rewrite datetime_now_run].

(** ** One cycle of the monitor *)

Section Cycle.

Import domain_monitor.
Variable cfg : Config.





(** The loop stops at the first cycle that raises. *)
Lemma monitor_loop_raises n w e w' :
  monitor_cycle cfg w = (Raise e, w') ->
  monitor_loop cfg (S n) w = (Raise e, w').
Proof.
  intros H. cbn [monitor_loop]. unfold mbind, IO_bind at 1. rewrite H.
  reflexivity.
Qed.

Lemma run_monitor_run cycles w :
  run_monitor cfg cycles w = monitor_loop cfg cycles (started cfg w).
Proof. unfold run_monitor. do 6 io_step. reflexivity. Qed.

End Cycle.

(** ** The single-shot checker *)

(** A check result that is not a dict stops [main] with an
    [AttributeError], at the first [result.get]. *)
Lemma main_check_not_a_dict hook url w result w1 :
  domain_check.check_wx_domain url
    (printed domain_check.rule_line (printed (domain_check.checking_line url) w))
  = (Ret result, w1) ->
  is_dict result = false ->
  domain_check.main_check hook url w
  = (Raise AttributeError,
     printed [] (printed [Dumps result] (printed domain_check.raw_header_line w1))).
Proof.
  intros Hcheck Hdict. unfold domain_check.main_check.
  do 2 io_step. unfold mbind, IO_bind at 1. rewrite Hcheck.
  do 3 io_step. unfold mbind, IO_bind at 1.
  destruct result; try discriminate; reflexivity.
Qed.

(** * The claims *)

(** C4. The check operation never raises: without a usable URL it returns
    [None] and sends nothing; otherwise it sends exactly one GET and
    returns [None] on a transport failure, on a status other than 200 and
    on a body that does not parse, and the parsed body itself on a 200
    response.  Both programs carry this checker. *)
Theorem check_wx_domain_never_raises :
  check_contract domain_monitor.check_wx_domain
  /\ check_contract domain_check.check_wx_domain.
Proof. split; exact monitor_check_contract. Qed.

(** The check of [a.example] in the scenario: one request, the parsed
    body handed back. *)
Lemma check_wx_domain_never_raises_witness :
  domain_monitor.check_wx_domain Scenario.a_example
    (Scenario.quiet_world Absent)
  = (Ret (Scenario.verdict (-202) (utf8 "ok")),
     set_http_gets [check_endpoint ++ Scenario.a_example]
       (Scenario.quiet_world Absent)).
Proof.
  destruct (proj1 check_wx_domain_never_raises Scenario.a_example
              (Scenario.quiet_world Absent))
    as [(q & _ & Hq & r & Hrun & Hr) | [[Hn | [e He]] _]].
  - injection Hq as <-. rewrite Hrun. vm_compute in Hr. rewrite Hr. reflexivity.
  - discriminate Hn.
  - discriminate He.
Defined.




Lemma unusable_raw_code result :
  truthy result = false \/ is_dict result = false
  \/ dict_has result (utf8 "reCode") = false ->
  raw_code result = None.
Proof.
  intros H.
  assert (Hc : truthy result && is_dict result && dict_has result (utf8 "reCode")
               = false).
  { destruct H as [-> | [-> | ->]];
      rewrite ?andb_false_r; reflexivity. }
  rewrite has_recode_raw_code in Hc.
  destruct (raw_code result); [discriminate | reflexivity].
Qed.

Lemma status_of_failed result : raw_code result = None -> status_of result = Failed.
Proof. unfold status_of. intros ->. reflexivity. Qed.

(** C10. In the monitor loop a check result that is falsy, or not a dict,
    or a dict without the key [reCode], is handled exactly as the [None]
    of an unreachable endpoint: the request-failed line is printed, the
    unknown counter goes up, nothing is posted, and the record keeps a
    null result with the fixed error marker, not the parsed body. *)
Theorem unusable_result_is_a_failed_check cfg t domain result w :
  truthy result = false \/ is_dict result = false
  \/ dict_has result (utf8 "reCode") = false ->
  domain_monitor.record_result cfg t domain result w
  = domain_monitor.record_result cfg t domain PNone w
  /\ exists rec w',
      domain_monitor.record_result cfg t domain result w
      = (Ret (domain_monitor.append_record rec (domain_monitor.count_unknown t)), w')
      /\ rec = domain_monitor.failed_record domain (time_of w)
      /\ record_field (utf8 "result") rec = PNone
      /\ record_field (utf8 "error") rec = PStr (utf8 "API调用失败")
      /\ http_posts w' = http_posts w
      /\ stdout w' = stdout w ++ [domain_monitor.failed_line].
Proof.
  intros H. apply unusable_raw_code in H.
  assert (Hrun : domain_monitor.record_result cfg t domain result w
                 = (Ret (domain_monitor.append_record
                           (domain_monitor.failed_record domain (time_of w))
                           (domain_monitor.count_unknown t)),
                    ticked (printed domain_monitor.failed_line w))).
  { rewrite record_result_run. unfold announced, record_of.
    rewrite (status_of_failed _ H). reflexivity. }
  split.
  - rewrite Hrun. rewrite record_result_run. reflexivity.
  - do 2 eexists. split; [exact Hrun |]. repeat split.
Qed.

(** A JSON body that is a list, not a dict. *)
Lemma unusable_result_is_a_failed_check_witness :
  let w := Scenario.quiet_world Absent in
  domain_monitor.record_result Scenario.cfg0 domain_monitor.tally0
    Scenario.a_example (PList [PInt 1]) w
  = domain_monitor.record_result Scenario.cfg0 domain_monitor.tally0
      Scenario.a_example PNone w.
Proof.
  intros w.
  apply (unusable_result_is_a_failed_check Scenario.cfg0 domain_monitor.tally0
           Scenario.a_example (PList [PInt 1]) w).
  right. left. reflexivity.
Defined.











(** ** The classification table *)

(** The table as the monitor loop applies it to a dict whose code is an
    int, and to [None]. *)
Lemma monitor_classification_table cfg domain d (c : Z) w :
  dict_get d (utf8 "reCode") = Some (PInt c) ->
  let result := PDict d in
  (c = (-202)%Z ->
   status_of result = Normal
   /\ announced cfg domain result w
      = printed (domain_monitor.normal_line (raw_data result)) w)
  /\ (c = (-203)%Z ->
      status_of result = Abnormal /\ display_msg result = raw_data result)
  /\ (c = 0%Z ->
      status_of result = Abnormal /\ display_msg result = PStr risk_msg)
  /\ (c <> (-202)%Z -> c <> (-203)%Z -> c <> 0%Z ->
      status_of result = Unknown
      /\ announced cfg domain result w
         = printed (domain_monitor.unknown_line (PInt c) (raw_data result)) w)
  /\ status_of PNone = Failed
  /\ announced cfg domain PNone w = printed domain_monitor.failed_line w.
Proof.
  intros Hc result.
  unfold announced, status_of, display_msg. cbn [raw_code result]. rewrite Hc.
  cbn [eq_int from_option id].
  split; [intros ->; split; reflexivity |].
  split; [intros ->; split; reflexivity |].
  split; [intros ->; split; reflexivity |].
  split; [| split; reflexivity].
  intros H1 H2 H3. apply Z.eqb_neq in H1, H2, H3. rewrite H1, H2, H3.
  split; reflexivity.
Qed.


(** A response whose [reCode] is null: the monitor loop takes its unknown
    branch and keeps the response in the record, the single-shot checker
    prints its request-failed line. *)
Example null_code_in_both_programs :
  let w := Scenario.quiet_world Absent in
  status_of Scenario.null_code = Unknown
  /\ announced Scenario.cfg0 Scenario.n_example Scenario.null_code w
     = printed (domain_monitor.unknown_line PNone (PStr [])) w
  /\ exists w',
      domain_check.main_check (WEBHOOK_URL Scenario.cfg0) Scenario.n_example w
      = (Ret tt, w')
      /\ stdout w'
         = [domain_check.checking_line Scenario.n_example; domain_check.rule_line;
            domain_check.raw_header_line; [Dumps Scenario.null_code]; [];
            domain_check.failed_line; domain_check.rule_line].
Proof.
  intros w. split; [reflexivity |]. split; [reflexivity |].
  destruct (domain_check.main_check (WEBHOOK_URL Scenario.cfg0)
              Scenario.n_example w) as [r w'] eqn:E.
  vm_compute in E. injection E as <- <-.
  eexists. split; [reflexivity |]. vm_compute. reflexivity.
Qed.

(** C1 (where the code departs from the claim).  When the check comes back
    with [None], the monitor loop takes the failed branch: it prints its
    request-failed line and counts the domain as unknown.  The single-shot
    checker does not reach its own request-failed line: [result.get] raises
    [AttributeError] right after the raw response was printed, and nothing
    is classified. *)
Theorem single_shot_raises_on_failed_check cfg hook t url w w1 :
  domain_check.check_wx_domain url
    (printed domain_check.rule_line (printed (domain_check.checking_line url) w))
  = (Ret PNone, w1) ->
  (exists w',
      domain_monitor.record_result cfg t url PNone w
      = (Ret (domain_monitor.append_record
                (domain_monitor.failed_record url (time_of w))
                (domain_monitor.count_unknown t)), w')
      /\ stdout w' = stdout w ++ [domain_monitor.failed_line])
  /\ exists w',
      domain_check.main_check hook url w = (Raise AttributeError, w')
      /\ stdout w'
         = stdout w ++ [domain_check.checking_line url; domain_check.rule_line;
                        domain_check.raw_header_line; [Dumps PNone]; []]
      /\ http_posts w' = http_posts w.
Proof.
  intros Hcheck. split.
  - eexists. rewrite record_result_run. split; reflexivity.
  - eexists. split.
    + apply (main_check_not_a_dict hook url w PNone w1 Hcheck). reflexivity.
    + destruct (check_wx_domain_frame url
                  (printed domain_check.rule_line
                     (printed (domain_check.checking_line url) w)))
        as (r & w2 & Hrun & _ & Hposts & Hout & _).
      rewrite check_wx_domain_same in Hcheck. rewrite Hcheck in Hrun.
      injection Hrun as <- <-.
      fields. rewrite Hout, Hposts. fields.
      rewrite <- !app_assoc. split; reflexivity.
Qed.

(** A domain on which the endpoint times out. *)
Lemma single_shot_raises_on_failed_check_witness :
  let url := utf8 "c.example" in
  let w := Scenario.quiet_world Absent in
  exists w',
    domain_check.main_check (WEBHOOK_URL Scenario.cfg0) url w
    = (Raise AttributeError, w')
    /\ stdout w'
       = stdout w ++ [domain_check.checking_line url; domain_check.rule_line;
                      domain_check.raw_header_line; [Dumps PNone]; []]
    /\ http_posts w' = http_posts w.
Proof.
  intros url w.
  refine (proj2 (single_shot_raises_on_failed_check Scenario.cfg0
                   (WEBHOOK_URL Scenario.cfg0) domain_monitor.tally0 url w
                   (set_http_gets [check_url url]
                      (printed domain_check.rule_line
                         (printed (domain_check.checking_line url) w))) _)).
  vm_compute. reflexivity.
Defined.

(** C5. Whatever the number of blank and comment lines and however they
    are interleaved with the lines that name a domain, the loader returns
    the latter, stripped, in the order of the file, duplicates included,
    and changes nothing. *)
Theorem load_domains_returns_the_entries w content valid junk :
  domains_txt w = Content content ->
  Interleaved valid junk (file_lines content) ->
  Forall (fun l => is_entry l = true) valid ->
  Forall (fun l => is_entry l = false) junk ->
  domain_monitor.load_domains w = (Ret (map strip valid), w)
  /\ length (map strip valid) = length valid.
Proof.
  intros Hfile Hmix Hvalid Hjunk.
  rewrite (load_domains_content w content Hfile).
  rewrite (filter_interleaved valid junk _ Hmix Hvalid Hjunk).
  split; [reflexivity | apply length_map].
Qed.

(** Two entries, one ended by a carriage return and line feed and one
    padded with blanks, among a comment, an empty line and an indented
    comment. *)
Lemma load_domains_returns_the_entries_witness :
  domain_monitor.load_domains (Scenario.quiet_world (Content Scenario.list_file))
  = (Ret [Scenario.a_example; Scenario.b_example],
     Scenario.quiet_world (Content Scenario.list_file)).
Proof.
  refine (proj1 (load_domains_returns_the_entries
                   (Scenario.quiet_world (Content Scenario.list_file))
                   Scenario.list_file
                   [Scenario.a_example ++ nl; utf8 "  b.example  " ++ nl]
                   [utf8 "# monitored" ++ nl; nl; utf8 "   # b.example is next" ++ nl]
                   eq_refl _ _ _)).
  - vm_compute. repeat constructor.
  - repeat constructor.
  - repeat constructor.
Defined.


Lemma started_frame cfg w :
  env (started cfg w) = env w /\ domains_txt (started cfg w) = domains_txt w
  /\ logs (started cfg w) = logs w /\ writes (started cfg w) = writes w
  /\ http_gets (started cfg w) = http_gets w
  /\ http_posts (started cfg w) = http_posts w
  /\ sleeps (started cfg w) = sleeps w.
Proof. unfold started. fields. repeat split. Qed.








(** The same file, corrupt, and then with a disk that refuses the write. *)
Example save_results_on_corrupt_and_unwritable :
  let date_str := strftime_date Scenario.noon in
  let corrupt := Scenario.world_of
                   (Scenario.env_of Scenario.webhook_ok (Scenario.always WriteOk))
                   Absent {[ Scenario.today := Corrupt ]} in
  let unwritable := Scenario.world_of
                      (Scenario.env_of Scenario.webhook_ok (Scenario.always WriteFails))
                      Absent {[ Scenario.today := Parsed (PList [Scenario.older]) ]} in
  (exists w1,
      domain_monitor.save_results Scenario.cfg0 date_str Scenario.batch1 corrupt
      = (Ret tt, w1)
      /\ logs w1 !! Scenario.today
         = Some (Parsed (PList [domain_monitor.log_entry (stamp corrupt) Scenario.batch1])))
  /\ exists w1,
      domain_monitor.save_results Scenario.cfg0 date_str Scenario.batch1 unwritable
      = (Ret tt, w1)
      /\ stdout w1 = [domain_monitor.save_failed_line OSError]
      /\ logs w1 !! Scenario.today = Some Corrupt.
Proof.
  intros date_str corrupt unwritable. split.
  - eexists. split; [apply save_results_run; vm_compute; reflexivity |].
    vm_compute. reflexivity.
  - eexists. split; [apply save_results_run; vm_compute; reflexivity |].
    vm_compute. repeat split.
Qed.

(** * Further properties *)

(** ** The loop over the domains, seen from outside *)

Section Loop.

Import domain_monitor.
Variable cfg : Config.





End Loop.



(** ** Many cycles *)

Section Cycles.

Import domain_monitor.
Variable cfg : Config.






End Cycles.







(** ** Ways the monitor ends *)

Section Endings.

Import domain_monitor.
Variable cfg : Config.


End Endings.





(** X7. When the list file is missing and the sample cannot be written,
    the [OSError] of the write leaves [main] uncaught: the process ends
    with status 1, the creation message is not printed, and no request is
    sent. *)
Theorem unwritable_sample_ends_with_an_error cfg n w :
  domains_txt w = Absent ->
  write_reply (env w) (length (writes w)) domains_path <> WriteOk ->
  exists w',
    domain_monitor.main cfg (S n) w = (Raise OSError, w')
    /\ exit_status (fst (domain_monitor.main cfg (S n) w)) = Some 1%Z
    /\ stdout w' = stdout (started cfg w)
    /\ http_gets w' = http_gets w
    /\ http_posts w' = http_posts w
    /\ logs w' = logs w.
Proof.
  intros Habsent Hwrite.
  destruct (started_frame cfg w) as (Fe & Ft & Fl & Fw & Fg & Fp & Fs).
  assert (Hcycle : exists w',
             domain_monitor.monitor_cycle cfg (started cfg w) = (Raise OSError, w')
             /\ stdout w' = stdout (started cfg w)
             /\ http_gets w' = http_gets w /\ http_posts w' = http_posts w
             /\ logs w' = logs w).
  { unfold domain_monitor.monitor_cycle. unfold mbind, IO_bind at 1.
    rewrite (load_domains_absent (started cfg w)) by congruence.
    unfold bootstrapped. rewrite Fe, Fw.
    destruct (write_reply (env w) (length (writes w)) domains_path);
      [congruence | |];
      (eexists; split; [reflexivity |]; fields; auto). }
  destruct Hcycle as (w' & Hcycle & Hout & Hg & Hp & Hl).
  assert (Hmain : domain_monitor.main cfg (S n) w = (Raise OSError, w')).
  { unfold domain_monitor.main, try_except.
    rewrite run_monitor_run, (monitor_loop_raises cfg n _ _ _ Hcycle).
    reflexivity. }
  exists w'. rewrite Hmain. split; [reflexivity |]. split; [reflexivity |].
  auto.
Qed.

(** A directory in which nothing can be created. *)
Lemma unwritable_sample_ends_with_an_error_witness :
  let w := Scenario.world_of
             (Scenario.env_of Scenario.webhook_ok (Scenario.always OpenFails))
             Absent ∅ in
  exists w',
    domain_monitor.main Scenario.cfg0 1 w = (Raise OSError, w')
    /\ exit_status (fst (domain_monitor.main Scenario.cfg0 1 w)) = Some 1%Z
    /\ stdout w' = stdout (started Scenario.cfg0 w)
    /\ http_gets w' = http_gets w
    /\ http_posts w' = http_posts w
    /\ logs w' = logs w.
Proof.
  intros w.
  apply (unwritable_sample_ends_with_an_error Scenario.cfg0 0 w);
    [reflexivity | discriminate].
Defined.

(** ** More on the log files *)

Lemma saved_logs cfg date_str results entries w :
  logs (saved cfg date_str results entries w)
  = match write_reply (env w) (length (writes w)) (log_path cfg date_str) with
    | WriteOk =>
        <[log_path cfg date_str :=
            Parsed (PList (entries ++ [domain_monitor.log_entry (stamp w) results]))]>
          (logs w)
    | OpenFails => logs w
    | WriteFails => <[log_path cfg date_str := Corrupt]> (logs w)
    end.
Proof. unfold saved. destruct (write_reply _ _ _); reflexivity. Qed.

(** X8. [save_results] rewrites the whole file, so a batch whose write
    fails is lost, and with it possibly the earlier ones: when the file
    cannot be opened it stays as it was and the next save extends the
    earlier entries; when the dump fails after the open the file no longer
    parses and the next save leaves a log that holds its own batch only. *)
Theorem failed_write_loses_the_batch cfg date_str b1 b2 old outcome w :
  let filename := log_path cfg date_str in
  existing_entries w filename = Some old ->
  write_reply (env w) (length (writes w)) filename = outcome ->
  outcome <> WriteOk ->
  write_reply (env w) (S (length (writes w))) filename = WriteOk ->
  exists w1 w2,
    domain_monitor.save_results cfg date_str b1 w = (Ret tt, w1)
    /\ domain_monitor.save_results cfg date_str b2 w1 = (Ret tt, w2)
    /\ logs w1 !! filename
       = match outcome with
         | WriteFails => Some Corrupt
         | _ => logs w !! filename
         end
    /\ logs w2 !! filename
       = Some (Parsed (PList
           (match outcome with WriteFails => [] | _ => old end
            ++ [domain_monitor.log_entry (stamp w1) b2]))).
Proof.
  intros filename Hold Hout Hfail Hok.
  set (w1 := saved cfg date_str b1 old w).
  destruct (saved_frame cfg date_str b1 old w) as (Henv & Hwrites & _).
  fold w1 in Henv, Hwrites.
  pose proof (saved_logs cfg date_str b1 old w) as Hlogs.
  fold w1 filename in Hlogs. rewrite Hout in Hlogs.
  assert (Hok' : write_reply (env w1) (length (writes w1)) filename = WriteOk).
  { rewrite Henv, Hwrites, length_app. cbn [length].
    rewrite Nat.add_1_r. exact Hok. }
  assert (Hold1 : existing_entries w1 filename
                  = Some (match outcome with WriteFails => [] | _ => old end)).
  { unfold existing_entries. rewrite Hlogs.
    destruct outcome; [congruence | exact Hold |].
    rewrite lookup_insert_eq. reflexivity. }
  exists w1, (saved cfg date_str b2
                (match outcome with WriteFails => [] | _ => old end) w1).
  split; [apply save_results_run; exact Hold |].
  split; [apply save_results_run; exact Hold1 |].
  split.
  - rewrite Hlogs. destruct outcome; [congruence | reflexivity |].
    apply lookup_insert_eq.
  - rewrite (saved_logs_ok _ _ _ _ _ Hok'). apply lookup_insert_eq.
Qed.

(** A log with one entry, a dump that fails, then a save that succeeds. *)
Lemma failed_write_loses_the_batch_witness :
  let date_str := strftime_date Scenario.noon in
  let w := Scenario.world_of
             (Scenario.env_of Scenario.webhook_ok
                (fun k => match k with O => WriteFails | _ => WriteOk end))
             Absent {[ Scenario.today := Parsed (PList [Scenario.older]) ]} in
  exists w1 w2,
    domain_monitor.save_results Scenario.cfg0 date_str Scenario.batch1 w = (Ret tt, w1)
    /\ domain_monitor.save_results Scenario.cfg0 date_str Scenario.batch2 w1
       = (Ret tt, w2)
    /\ logs w1 !! log_path Scenario.cfg0 date_str = Some Corrupt
    /\ logs w2 !! log_path Scenario.cfg0 date_str
       = Some (Parsed (PList
           ([] ++ [domain_monitor.log_entry (stamp w1) Scenario.batch2]))).
Proof.
  intros date_str w.
  refine (failed_write_loses_the_batch Scenario.cfg0 date_str Scenario.batch1
            Scenario.batch2 [Scenario.older] WriteFails w _ eq_refl _ eq_refl).
  - vm_compute. reflexivity.
  - discriminate.
Defined.

(** The date of [strftime('%Y-%m-%d')] begins with a digit. *)
Lemma strftime_date_head t :
  exists c r, strftime_date t = c :: r /\ c <> 47%N.
Proof.
  unfold strftime_date, pad4. cbn [app]. do 2 eexists. split; [reflexivity |].
  unfold digit. generalize ((year t / 1000) mod 10)%N. intros n. lia.
Qed.

(** The directory part that [os.path.join] puts before a relative name. *)
Lemma path_join_relative a c r :
  c <> 47%N ->
  path_join a (c :: r)
  = match last a with
    | None => []
    | Some c' => if (c' =? 47)%N then a else a ++ [47%N]
    end ++ c :: r.
Proof.
  intros Hc. unfold path_join.
  destruct c as [| p].
  - destruct (last a) as [c' |]; [| reflexivity].
    destruct (c' =? 47)%N; [reflexivity |]. rewrite <- app_assoc. reflexivity.
  - repeat (destruct p as [p | p |];
            try (destruct (last a) as [c' |]; [| reflexivity];
                 destruct (c' =? 47)%N; [reflexivity |];
                 rewrite <- app_assoc; reflexivity)).
    congruence.
Qed.

(** Different dates have different log files. *)
Lemma log_path_injective cfg t1 t2 :
  log_path cfg (strftime_date t1) = log_path cfg (strftime_date t2) ->
  strftime_date t1 = strftime_date t2.
Proof.
  unfold log_path.
  destruct (strftime_date_head t1) as (c1 & r1 & -> & H1).
  destruct (strftime_date_head t2) as (c2 & r2 & -> & H2).
  cbn [app]. rewrite (path_join_relative _ _ _ H1), (path_join_relative _ _ _ H2).
  intros H. apply app_inv_head in H.
  change (c1 :: r1 ++ utf8 ".json") with ((c1 :: r1) ++ utf8 ".json") in H.
  change (c2 :: r2 ++ utf8 ".json") with ((c2 :: r2) ++ utf8 ".json") in H.
  apply app_inv_tail in H. exact H.
Qed.

(** X9. Every date has its own file: saving the batch of one day leaves
    the log of any other day as it was, whatever becomes of the write. *)
Theorem other_days_are_left_alone cfg t1 t2 results w :
  strftime_date t1 <> strftime_date t2 ->
  logs (snd (domain_monitor.save_results cfg (strftime_date t2) results w))
    !! log_path cfg (strftime_date t1)
  = logs w !! log_path cfg (strftime_date t1).
Proof.
  intros Hdates.
  assert (Hpaths : log_path cfg (strftime_date t2) <> log_path cfg (strftime_date t1)).
  { intros H. apply Hdates. symmetry. exact (log_path_injective cfg t2 t1 H). }
  destruct (existing_entries w (log_path cfg (strftime_date t2)))
    as [old |] eqn:Hold.
  - rewrite (save_results_run _ _ _ _ _ Hold). cbn [snd].
    rewrite saved_logs.
    destruct (write_reply _ _ _); [| reflexivity |];
      apply lookup_insert_ne; exact Hpaths.
  - rewrite (save_results_not_a_list _ _ _ _ Hold). reflexivity.
Qed.

(** Yesterday's log while today's batch is saved. *)
Lemma other_days_are_left_alone_witness :
  let yesterday :=
    {| year := 2024; month := 1; day := 1; hour := 9; minute := 30; second := 0 |} in
  let w := Scenario.world_of
             (Scenario.env_of Scenario.webhook_ok (Scenario.always WriteOk))
             Absent {[ utf8 "logs/2024-01-01.json" := Parsed (PList [Scenario.older]) ]} in
  logs (snd (domain_monitor.save_results Scenario.cfg0
               (strftime_date Scenario.noon) Scenario.batch1 w))
    !! log_path Scenario.cfg0 (strftime_date yesterday)
  = logs w !! log_path Scenario.cfg0 (strftime_date yesterday).
Proof.
  intros yesterday w.
  apply (other_days_are_left_alone Scenario.cfg0 yesterday Scenario.noon
           Scenario.batch1 w).
  intros H. vm_compute in H. discriminate H.
Defined.

(** ** What the loader hands out *)

Lemma lstrip_head s c r : lstrip s = c :: r -> isspace c = false.
Proof.
  induction s as [| x s IH]; cbn [lstrip]; [discriminate |].
  destruct (isspace x) eqn:Hx; [exact IH |].
  intros [= <- <-]. exact Hx.
Qed.

(** [lstrip] drops a prefix. *)
Lemma lstrip_suffix s : exists p, s = p ++ lstrip s.
Proof.
  induction s as [| x s [p IH]]; [exists []; reflexivity |].
  cbn [lstrip]. destruct (isspace x).
  - exists (x :: p). cbn [app]. rewrite <- IH. reflexivity.
  - exists []. reflexivity.
Qed.

(** [rstrip] drops a suffix. *)
Lemma rstrip_prefix s : exists q, s = rstrip s ++ q.
Proof.
  unfold rstrip. destruct (lstrip_suffix (rev s)) as [p Hp].
  exists (rev p). rewrite <- rev_app_distr, <- Hp, rev_involutive. reflexivity.
Qed.

Lemma strip_head s c r : strip s = c :: r -> isspace c = false.
Proof.
  unfold strip. intros H.
  destruct (rstrip_prefix (lstrip s)) as [q Hq]. rewrite H in Hq.
  exact (lstrip_head s c (r ++ q) Hq).
Qed.

Lemma strip_last s c : last (strip s) = Some c -> isspace c = false.
Proof.
  unfold strip, rstrip.
  destruct (lstrip (rev (lstrip s))) as [| x r] eqn:H; [discriminate |].
  cbn [rev]. rewrite last_snoc. intros [= <-].
  exact (lstrip_head _ _ _ H).
Qed.

Lemma entry_is_clean line : is_entry line = true -> clean_domain (strip line) = true.
Proof.
  unfold is_entry, clean_domain. intros H. apply andb_true_iff in H as [Hn Hh].
  destruct (strip line) as [| c r] eqn:Hs; [discriminate |].
  destruct (last (c :: r)) as [c' |] eqn:Hl.
  - rewrite <- Hs in Hl.
    rewrite (strip_head line c r Hs), (strip_last line c' Hl).
    cbn [startswith_hash] in Hh. rewrite Hh. reflexivity.
  - apply last_None in Hl. discriminate.
Qed.

(** X10. Every name the loader returns is clean: it is not empty, it
    neither begins nor ends with white space, and it does not begin with
    [#]. *)
Theorem loaded_domains_are_clean w domains w' :
  domain_monitor.load_domains w = (Ret domains, w') ->
  Forall (fun d => clean_domain d = true) domains.
Proof.
  destruct (domains_txt w) as [| | content] eqn:H.
  - rewrite (load_domains_absent w H). unfold bootstrapped.
    destruct (write_reply _ _ _); discriminate.
  - rewrite (load_domains_unreadable w H). intros [= <- <-]. constructor.
  - rewrite (load_domains_content w content H). intros [= <- <-].
    apply List.Forall_forall. intros d Hd.
    apply List.in_map_iff in Hd as (l & <- & Hl).
    apply filter_In in Hl as [_ Hl]. exact (entry_is_clean l Hl).
Qed.

(** The padded and commented list of the scenario. *)
Lemma loaded_domains_are_clean_witness :
  Forall (fun d => clean_domain d = true) [Scenario.a_example; Scenario.b_example].
Proof.
  apply (loaded_domains_are_clean
           (Scenario.quiet_world (Content Scenario.list_file))
           [Scenario.a_example; Scenario.b_example]
           (Scenario.quiet_world (Content Scenario.list_file))).
  vm_compute. reflexivity.
Defined.

(** ** Dicts and the payload of an alert *)

Lemma dict_get_set_eq {V} (d : list (pystr * V)) k v :
  dict_get (dict_set d k v) k = Some v.
Proof.
  induction d as [| [k' v'] d IH]; cbn [dict_set dict_get].
  - rewrite bool_decide_eq_true_2 by reflexivity. reflexivity.
  - destruct (bool_decide (k' = k)) eqn:E; cbn [dict_get].
    + rewrite bool_decide_eq_true_2 by reflexivity. reflexivity.
    + rewrite E. exact IH.
Qed.

Lemma dict_get_set_ne {V} (d : list (pystr * V)) k k' v :
  k <> k' -> dict_get (dict_set d k v) k' = dict_get d k'.
Proof.
  intros Hne. induction d as [| [k0 v0] d IH]; cbn [dict_set dict_get].
  - rewrite bool_decide_eq_false_2 by exact Hne. reflexivity.
  - destruct (bool_decide (k0 = k)) eqn:E; cbn [dict_get].
    + apply bool_decide_eq_true_1 in E. subst k0.
      rewrite !bool_decide_eq_false_2 by exact Hne. reflexivity.
    + destruct (bool_decide (k0 = k')); [reflexivity | exact IH].
Qed.

Lemma dict_get_app {V} (d1 d2 : list (pystr * V)) k :
  dict_get (d1 ++ d2) k
  = match dict_get d1 k with Some v => Some v | None => dict_get d2 k end.
Proof.
  induction d1 as [| [k' v'] d1 IH]; cbn [app dict_get]; [reflexivity |].
  destruct (bool_decide (k' = k)); [reflexivity | exact IH].
Qed.

(** In [{**d, **extra}] the last value given for a key wins. *)
Lemma dict_get_update {V} (extra : list (pystr * V)) : forall d k,
  dict_get (dict_update d extra) k
  = match dict_get (rev extra) k with
    | Some v => Some v
    | None => dict_get d k
    end.
Proof.
  unfold dict_update.
  induction extra as [| [k0 v0] extra IH]; intros d k; cbn [fold_left rev].
  - reflexivity.
  - rewrite IH, dict_get_app. cbn [fst snd dict_get].
    destruct (dict_get (rev extra) k); [reflexivity |].
    destruct (bool_decide (k0 = k)) eqn:E.
    + apply bool_decide_eq_true_1 in E. subst k0. apply dict_get_set_eq.
    + apply bool_decide_eq_false_1 in E. apply dict_get_set_ne. exact E.
Qed.

Lemma dict_get_map {V W} (f : V -> W) (d : list (pystr * V)) k :
  dict_get (map (fun kv => (fst kv, f (snd kv))) d) k = f <$> dict_get d k.
Proof.
  induction d as [| [k' v'] d IH]; cbn [map dict_get fst snd]; [reflexivity |].
  destruct (bool_decide (k' = k)); [reflexivity | exact IH].
Qed.

(** X11. The [text] dict of the monitor's alert holds every entry of
    [NOTIFICATION_CONFIG] (the mention lists), and under [content] the
    alert text, unless the configuration itself has a key [content], whose
    value then replaces the alert text. *)
Theorem alert_carries_the_configuration cfg url msg current_time k :
  dict_get (text_dict (domain_monitor.alert_message cfg url msg current_time)) k
  = match dict_get (rev (NOTIFICATION_CONFIG cfg)) k with
    | Some v => Some (inr v)
    | None =>
        if bool_decide (utf8 "content" = k)
        then Some (inl (alert_text url msg current_time))
        else None
    end.
Proof.
  unfold domain_monitor.alert_message. cbn [text_dict].
  rewrite dict_get_update, <- map_rev.
  rewrite (dict_get_map inr). destruct (dict_get (rev (NOTIFICATION_CONFIG cfg)) k);
    reflexivity.
Qed.

(** The alert of the scenario: the mention list is in the payload. *)
Example alert_of_the_scenario_mentions :
  dict_get (text_dict (domain_monitor.alert_message Scenario.cfg0
                         Scenario.b_example (PStr risk_msg) (utf8 "now")))
    (utf8 "mentioned_list")
  = Some (inr (PList [PStr (utf8 "u1")])).
Proof. vm_compute. reflexivity. Qed.

(** ** The guard of the dispatcher *)






(** ** The single-shot checker on a dict *)




(** ** The request URL *)

Local Open Scope N_scope.

Ltac bool_to_prop :=
  rewrite ?orb_true_iff, ?andb_true_iff, ?N.leb_le, ?N.eqb_eq, ?N.ltb_lt.

Lemma hex_digit_safe n : n < 16 -> quote_safe (hex_digit n) = true.
Proof.
  intros Hn. unfold hex_digit, quote_safe.
  destruct (n <? 10) eqn:E.
  - apply N.ltb_lt in E. bool_to_prop. lia.
  - apply N.ltb_ge in E. bool_to_prop. lia.
Qed.

Lemma quote_byte_chars b :
  b < 256 -> Forall (fun c => url_char c = true) (quote_byte b).
Proof.
  intros Hb. unfold quote_byte. destruct (quote_safe b) eqn:E.
  - repeat constructor. unfold url_char. rewrite E. reflexivity.
  - assert (b / 16 < 16) by (apply N.Div0.div_lt_upper_bound; lia).
    assert (b mod 16 < 16) by (apply N.mod_upper_bound; lia).
    repeat constructor; unfold url_char;
      rewrite hex_digit_safe by assumption; reflexivity.
Qed.

Lemma utf8_encode_char_bytes c :
  code_point c -> Forall (fun b => b < 256) (utf8_encode_char c).
Proof.
  unfold code_point, utf8_encode_char. intros Hc.
  assert (c mod 64 < 64) by (apply N.mod_upper_bound; lia).
  assert ((c / 64) mod 64 < 64) by (apply N.mod_upper_bound; lia).
  assert ((c / 4096) mod 64 < 64) by (apply N.mod_upper_bound; lia).
  destruct (c <? 128) eqn:E1; [apply N.ltb_lt in E1; repeat constructor; lia |].
  destruct (c <? 2048) eqn:E2.
  { apply N.ltb_lt in E2.
    assert (c / 64 < 32) by (apply N.Div0.div_lt_upper_bound; lia).
    repeat constructor; lia. }
  destruct (c <? 65536) eqn:E3.
  { apply N.ltb_lt in E3.
    assert (c / 4096 < 16) by (apply N.Div0.div_lt_upper_bound; lia).
    repeat constructor; lia. }
  assert (c / 262144 < 5) by (apply N.Div0.div_lt_upper_bound; lia).
  repeat constructor; lia.
Qed.

Lemma quote_chars url quoted :
  Forall code_point url ->
  quote url = inr quoted ->
  Forall (fun c => url_char c = true) quoted.
Proof.
  unfold quote. intros Hurl. destruct (existsb is_surrogate url); [discriminate |].
  intros [= <-].
  apply List.Forall_forall. intros c Hc.
  apply in_flat_map in Hc as (b & Hb & Hc).
  apply in_flat_map in Hb as (p & Hp & Hb).
  rewrite List.Forall_forall in Hurl.
  pose proof (utf8_encode_char_bytes p (Hurl p Hp)) as Hbytes.
  rewrite List.Forall_forall in Hbytes.
  pose proof (quote_byte_chars b (Hbytes b Hb)) as Hchars.
  rewrite List.Forall_forall in Hchars. exact (Hchars c Hc).
Qed.

Local Close Scope N_scope.

(** X14. Whatever the text of a domain, the checker requests nothing or
    one URL, and that URL is the fixed endpoint followed only by unreserved
    characters, slashes and percent escapes: a name cannot add a parameter
    to the query or cut it short. *)
Theorem request_url_is_escaped url w :
  Forall code_point url ->
  exists r w' quoted,
    domain_monitor.check_wx_domain url w = (Ret r, w')
    /\ (http_gets w' = http_gets w
        \/ http_gets w' = http_gets w ++ [check_endpoint ++ quoted])
    /\ Forall (fun c => url_char c = true) quoted.
Proof.
  intros Hurl.
  destruct (check_wx_domain_frame url w) as (r & w' & Hrun & Hgets & _).
  unfold requests_for in Hgets.
  destruct (nonempty url).
  - destruct (quote url) as [e | quoted] eqn:Hq.
    + exists r, w', []. rewrite app_nil_r in Hgets.
      split; [exact Hrun |]. split; [left; exact Hgets | constructor].
    + exists r, w', quoted.
      split; [exact Hrun |]. split; [right; exact Hgets |].
      exact (quote_chars url quoted Hurl Hq).
  - exists r, w', []. rewrite app_nil_r in Hgets.
    split; [exact Hrun |]. split; [left; exact Hgets | constructor].
Qed.

(** A name that tries to add a parameter. *)
Lemma request_url_is_escaped_witness :
  let url := utf8 "a.example&x=1 #" in
  let w := Scenario.quiet_world Absent in
  exists r w' quoted,
    domain_monitor.check_wx_domain url w = (Ret r, w')
    /\ (http_gets w' = http_gets w
        \/ http_gets w' = http_gets w ++ [check_endpoint ++ quoted])
    /\ Forall (fun c => url_char c = true) quoted.
Proof.
  intros url w.
  apply (request_url_is_escaped url w).
  assert (H : forallb (fun c => c <=? 1114111)%N url = true)
    by (vm_compute; reflexivity).
  apply List.Forall_forall. intros c Hc.
  rewrite forallb_forall in H. apply N.leb_le. exact (H c Hc).
Defined.

(** What is requested for that name. *)
Example escaped_request :
  requests_for (utf8 "a.example&x=1 #")
  = [check_endpoint ++ utf8 "a.example%26x%3D1%20%23"].
Proof. vm_compute. reflexivity. Qed.

(** ** The report of a cycle *)

Section Report.

Import domain_monitor.
Variable cfg : Config.


End Report.



(** ** A negative interval *)

Section NegativeInterval.

Import domain_monitor.
Variable cfg : Config.



End NegativeInterval.


